(** * hcloud_server_info: a model of the Ansible info module

    The module [plugins/modules/hcloud_server_info.py] selects one lookup of
    the Hetzner Cloud client by its parameters, stores what the lookup
    returned and flattens every server object into a plain mapping.  The
    development below embeds the module's Python in Rocq: Python objects are
    values of [value], dictionaries are finite maps with string keys, and the
    effects of the module (calls of the API client, deprecation notices,
    exceptions, [exit_json] and [fail_json]) are threaded through a small
    state-and-outcome monad. *)

From stdpp Require Import gmap strings list fin_maps pretty.

Set Warnings "-register-all".
Open Scope Z_scope.
Open Scope string_scope.
Open Scope list_scope.

(** ** Python values *)

(** The JSON-like part of Python's object universe that the module handles:
    [None], booleans, integers, strings, lists and dictionaries with string
    keys. *)
Inductive value : Type :=
  | VNone
  | VBool (b : bool)
  | VInt (z : Z)
  | VStr (s : string)
  | VList (l : list value)
  | VDict (d : gmap string value).

(** [ansible.module_utils._text.to_native]: a text string is returned as it
    is, any other object goes through [str], which for an integer is its
    decimal representation. *)
Class ToNative (A : Type) := to_native : A → string.
Global Instance to_native_str : ToNative string := λ s, s.
Global Instance to_native_int : ToNative Z := λ z, pretty z.

(** ** Server objects of the cloud client

    The attributes of the client's server object that the module reads.  An
    attribute that the module guards with [is None] is an [option]; the
    others are read unguarded and are always present in the API's server
    schema. *)

Record Image := { image_name : string }.
Record PlacementGroup := { placement_group_name : string }.
Record ServerType := { server_type_name : string }.
Record Location := { location_name : string }.
Record Datacenter := { datacenter_name : string; location : Location }.
Record Network := { network_name : string }.
Record IPv4Address := { ipv4_ip : string }.
Record IPv6Network := { ipv6_ip : string }.
Record PublicNetwork :=
  { ipv4 : option IPv4Address; ipv6 : option IPv6Network }.
Record PrivateNet := { network : Network; ip : string }.

(** [server.protection] is the API's protection object; it always carries
    the two flags that the module reads as [protection["delete"]] and
    [protection["rebuild"]]. *)
Record Protection := { delete : bool; rebuild : bool }.

Record Server := {
  server_id : Z;
  server_name : string;
  status : string;
  image : option Image;
  placement_group : option PlacementGroup;
  public_net : PublicNetwork;
  private_net : list PrivateNet;
  server_type : ServerType;
  datacenter : Datacenter;
  rescue_enabled : bool;
  backup_window : option string;
  labels : gmap string string;
  protection : Protection
}.

(** ** Exceptions, outcomes and the effects of a module run *)

(** A Python exception object: its class name, whether the class derives
    from [Exception] (what an [except Exception] clause tests), and its
    [message] attribute when the object has one.  hcloud's [APIException]
    defines [message]; an exception of Python 3 has none unless its class
    defines it. *)
Record PyExc := {
  exc_class : string;
  exc_is_Exception : bool;
  exc_message : option string
}.

Definition AttributeError : PyExc :=
  {| exc_class := "AttributeError"; exc_is_Exception := true;
     exc_message := None |}.
Definition TypeError : PyExc :=
  {| exc_class := "TypeError"; exc_is_Exception := true;
     exc_message := None |}.
Definition KeyError : PyExc :=
  {| exc_class := "KeyError"; exc_is_Exception := true;
     exc_message := None |}.

(** What a call of a pure Python function does: it returns or it raises. *)
Inductive pyresult (A : Type) : Type :=
  | Returns (a : A)
  | Raises (e : PyExc).
Arguments Returns {A} a.
Arguments Raises {A} e.

(** The calls the module can make on [client.servers]. *)
Inductive ApiCall : Type :=
  | GetById (i : Z)
  | GetByName (n : string)
  | GetAll (label_selector : option string).

(** [module.deprecate(msg, version=..., collection_name=...)]. *)
Record Deprecation := {
  dep_msg : string;
  dep_version : string;
  dep_collection_name : string
}.

(** The two ways a module hands its answer to the host and stops. *)
Inductive ModuleExit : Type :=
  | ExitJson (kwargs : gmap string value)
  | FailJson (msg : string).

(** What is observable of a run besides its answer: the calls made on the
    API client and the deprecation notices, both in the order they
    happened. *)
Record World := {
  api_calls : list ApiCall;
  deprecations : list Deprecation
}.

Definition world0 : World := {| api_calls := []; deprecations := [] |}.

(** A statement of the module finishes normally with a value, raises, or
    leaves the process through [exit_json] / [fail_json]. *)
Inductive outcome (A : Type) : Type :=
  | Normal (a : A)
  | Raised (e : PyExc)
  | Exited (x : ModuleExit).
Arguments Normal {A} a.
Arguments Raised {A} e.
Arguments Exited {A} x.

Definition M (A : Type) : Type := World → World * outcome A.

Global Instance M_ret : MRet M := λ A a w, (w, Normal a).
Global Instance M_bind : MBind M := λ A B f m w,
  match m w with
  | (w', Normal a) => f a w'
  | (w', Raised e) => (w', Raised e)
  | (w', Exited x) => (w', Exited x)
  end.

Definition raise {A} (e : PyExc) : M A := λ w, (w, Raised e).

Definition lift {A} (r : pyresult A) : M A :=
  match r with
  | Returns a => mret a
  | Raises e => raise e
  end.

(** [try: body except Exception as e: handler]: an exception whose class
    derives from [Exception] goes to the handler; whatever the handler does,
    raising included, is the statement's outcome. *)
Definition try_except_Exception {A} (body : M A) (handler : PyExc → M A) : M A :=
  λ w, match body w with
       | (w', Raised e) =>
           if exc_is_Exception e then handler e w' else (w', Raised e)
       | r => r
       end.

(** [e.message]: attribute access, [AttributeError] when there is none. *)
Definition getattr_message (e : PyExc) : M string :=
  match exc_message e with
  | Some m => mret m
  | None => raise AttributeError
  end.

Definition fail_json {A} (msg : string) : M A :=
  λ w, (w, Exited (FailJson msg)).

Definition exit_json {A} (kwargs : gmap string value) : M A :=
  λ w, (w, Exited (ExitJson kwargs)).

Definition deprecate (msg version collection_name : string) : M unit :=
  λ w, ({| api_calls := api_calls w;
           deprecations := deprecations w ++
             [{| dep_msg := msg; dep_version := version;
                 dep_collection_name := collection_name |}] |},
        Normal ()).

(** [d[k]] on a dictionary. *)
Definition subscript (d : gmap string value) (k : string) : M value :=
  match d !! k with
  | Some v => mret v
  | None => raise KeyError
  end.

(** ** The collaborators of the module *)

(** [client.servers] of the hcloud SDK.  Each method returns or raises; a
    single lookup returns a server object or [None], [get_all] a list, with
    [label_selector=None] when the keyword is not passed. *)
Record ServersClient := {
  get_by_id : Z → pyresult (option Server);
  get_by_name : string → pyresult (option Server);
  get_all : option string → pyresult (list (option Server))
}.

(** Calling a method of the client is recorded in the world. *)
Definition invoke {A} (c : ApiCall) (r : pyresult A) : M A :=
  λ w, lift r {| api_calls := api_calls w ++ [c];
                 deprecations := deprecations w |}.

(** [module.params] after the host validated them against the
    [argument_spec] of [define_module]: [id] is an int, [name] and
    [label_selector] are strings, each [None] when not given. *)
Record Params := {
  params_id : option Z;
  params_name : option string;
  params_label_selector : option string
}.

(** The [AnsibleModule] that [define_module] returns: the name it was
    invoked under and its parameters. *)
Record AnsibleModule := {
  _name : string;
  params : Params
}.

(** ** class AnsibleHcloudServerInfo *)

Record AnsibleHcloudServerInfo := {
  module : AnsibleModule;
  client : ServersClient;
  hcloud_server_info : option (list (option Server))
}.

(** [__init__]: the base class stores the module and builds the client,
    which is given here; [hcloud_server_info] starts as [None]. *)
Definition __init__ (module : AnsibleModule) (client : ServersClient)
  : AnsibleHcloudServerInfo :=
  {| module := module; client := client; hcloud_server_info := None |}.

(** The body of the loop of [_prepare_result]: what one element of
    [self.hcloud_server_info] adds to [tmp]. *)
Definition _prepare_result_body (tmp : list value) (server : option Server)
  : list value :=
  match server with
  | Some server =>
      let image :=
        match image server with
        | None => VNone | Some i => VStr (to_native (image_name i)) end in
      let placement_group :=
        match placement_group server with
        | None => VNone
        | Some g => VStr (to_native (placement_group_name g)) end in
      let ipv4_address :=
        match ipv4 (public_net server) with
        | None => VNone | Some a => VStr (to_native (ipv4_ip a)) end in
      let ipv6 :=
        match ipv6 (public_net server) with
        | None => VNone | Some a => VStr (to_native (ipv6_ip a)) end in
      let backup_window :=
        match backup_window server with
        | None => VNone | Some b => VStr (to_native b) end in
      tmp ++ [VDict (list_to_map [
        ("id", VStr (to_native (server_id server)));
        ("name", VStr (to_native (server_name server)));
        ("ipv4_address", ipv4_address);
        ("ipv6", ipv6);
        ("private_networks",
          VList ((λ net, VStr (to_native (network_name (network net))))
                   <$> private_net server));
        ("private_networks_info",
          VList ((λ net, VDict (list_to_map [
                    ("name", VStr (to_native (network_name (network net))));
                    ("ip", VStr (ip net))]))
                   <$> private_net server));
        ("image", image);
        ("server_type", VStr (to_native (server_type_name (server_type server))));
        ("datacenter", VStr (to_native (datacenter_name (datacenter server))));
        ("location",
          VStr (to_native (location_name (location (datacenter server)))));
        ("placement_group", placement_group);
        ("rescue_enabled", VBool (rescue_enabled server));
        ("backup_window", backup_window);
        ("labels", VDict (VStr <$> labels server));
        ("status", VStr (to_native (status server)));
        ("delete_protection", VBool (delete (protection server)));
        ("rebuild_protection", VBool (rebuild (protection server)))
      ])]
  | None => tmp
  end.

(** [for server in self.hcloud_server_info] raises [TypeError] when the
    attribute is still [None]. *)
Definition _prepare_result (self : AnsibleHcloudServerInfo) : pyresult (list value) :=
  match hcloud_server_info self with
  | None => Raises TypeError
  | Some servers => Returns (fold_left _prepare_result_body servers [])
  end.

Definition set_hcloud_server_info (self : AnsibleHcloudServerInfo)
    (v : list (option Server)) : AnsibleHcloudServerInfo :=
  {| module := module self; client := client self;
     hcloud_server_info := Some v |}.

Definition get_servers (self : AnsibleHcloudServerInfo) : M AnsibleHcloudServerInfo :=
  try_except_Exception
    (match params_id (params (module self)) with
     | Some i =>
         r ← invoke (GetById i) (get_by_id (client self) i);
         mret (set_hcloud_server_info self [r])
     | None =>
       match params_name (params (module self)) with
       | Some n =>
           r ← invoke (GetByName n) (get_by_name (client self) n);
           mret (set_hcloud_server_info self [r])
       | None =>
         match params_label_selector (params (module self)) with
         | Some l =>
             r ← invoke (GetAll (Some l)) (get_all (client self) (Some l));
             mret (set_hcloud_server_info self r)
         | None =>
             r ← invoke (GetAll None) (get_all (client self) None);
             mret (set_hcloud_server_info self r)
         end
       end
     end)
    (λ e, msg ← getattr_message e; fail_json msg).

(** ** define_module *)

(** What [define_module] hands to the [AnsibleModule] constructor. *)
Record ModuleDefinition := {
  argument_spec : gmap string value;
  supports_check_mode : bool
}.

(** [dict(k1=v1, ..., **extra)]: the keywords written out and those of
    [extra] end up in one dictionary; a keyword given both ways is a
    [TypeError]. *)
Definition dict_kwargs (own : list (string * value)) (extra : gmap string value)
  : pyresult (gmap string value) :=
  if forallb (λ kv, bool_decide (extra !! kv.1 = None)) own
  then Returns (list_to_map own ∪ extra)
  else Raises TypeError.

(** [base_module_arguments] stands for what [Hcloud.base_module_arguments()]
    of the base class returns. *)
Definition define_module (base_module_arguments : gmap string value)
  : pyresult ModuleDefinition :=
  match dict_kwargs
          [("id", VDict {[ "type" := VStr "int" ]});
           ("name", VDict {[ "type" := VStr "str" ]});
           ("label_selector", VDict {[ "type" := VStr "str" ]})]
          base_module_arguments with
  | Returns spec =>
      Returns {| argument_spec := spec; supports_check_mode := true |}
  | Raises e => Raises e
  end.

(** ** main *)

Section Main.

(** [Hcloud.get_result] belongs to the base class in
    [plugins/module_utils/hcloud.py]; [main] is written against any
    implementation of it. *)
Variable get_result : AnsibleHcloudServerInfo → pyresult (gmap string value).

Definition main (module : AnsibleModule) (client : ServersClient) : M unit :=
  let is_old_facts := bool_decide (_name module = "hcloud_server_facts") in
  _ ← (if is_old_facts
       then deprecate
              ("The 'hcloud_server_facts' module has been renamed to 'hcloud_server_info', "
               +:+ "and the renamed one no longer returns ansible_facts")
              "2.0.0" "hetzner.hcloud"
       else mret ());
  let hcloud := __init__ module client in
  hcloud ← get_servers hcloud;
  result ← lift (get_result hcloud);
  if is_old_facts then
    v ← subscript result "hcloud_server_info";
    let ansible_info : gmap string value := {[ "hcloud_server_facts" := v ]} in
    exit_json {[ "ansible_facts" := VDict ansible_info ]}
  else
    v ← subscript result "hcloud_server_info";
    let ansible_info : gmap string value := {[ "hcloud_server_info" := v ]} in
    exit_json ansible_info.

End Main.

(** Modelled from the spec: [Hcloud.get_result], the base-class method of
    [plugins/module_utils/hcloud.py] that [main] calls.  The module "hands
    the list back to the surrounding plugin host": the result mapping holds,
    under the key named after the module, the list that [_prepare_result]
    built. *)
Definition Hcloud_get_result (self : AnsibleHcloudServerInfo)
  : pyresult (gmap string value) :=
  match _prepare_result self with
  | Returns records => Returns {[ "hcloud_server_info" := VList records ]}
  | Raises e => Raises e
  end.

(** ** Reading the output *)

(** [r[k]] and [r.keys()] on a value that is a dictionary. *)
Definition field (r : value) (k : string) : option value :=
  match r with
  | VDict d => d !! k
  | _ => None
  end.

Definition keys (r : value) : option (gset string) :=
  match r with
  | VDict d => Some (dom d)
  | _ => None
  end.

(** The keys of a server record, as the module's RETURN block lists them. *)
Definition record_keys : gset string :=
  {[ "id"; "name"; "status"; "server_type"; "ipv4_address"; "ipv6";
     "private_networks"; "private_networks_info"; "image"; "datacenter";
     "location"; "placement_group"; "rescue_enabled"; "backup_window";
     "labels"; "delete_protection"; "rebuild_protection" ]}.

(** The server objects among the elements of [self.hcloud_server_info]. *)
Definition server_objects (servers : list (option Server)) : list Server :=
  omap id servers.

(** [r] is the record that the loop body appends for [server]. *)
Definition record_of (server : Server) (r : value) : Prop :=
  _prepare_result_body [] (Some server) = [r].

(** The call that the precedence rule id > name > label_selector > none
    selects for the given parameters. *)
Definition strategy_by_precedence (p : Params) : ApiCall :=
  match params_id p, params_name p, params_label_selector p with
  | Some i, _, _ => GetById i
  | None, Some n, _ => GetByName n
  | None, None, Some l => GetAll (Some l)
  | None, None, None => GetAll None
  end.

(** What a call yields as the list that [get_servers] stores: a single
    lookup is wrapped in a one-element list. *)
Definition perform (c : ServersClient) (call : ApiCall)
  : pyresult (list (option Server)) :=
  match call with
  | GetById i =>
      match get_by_id c i with
      | Returns r => Returns [r]
      | Raises e => Raises e
      end
  | GetByName n =>
      match get_by_name c n with
      | Returns r => Returns [r]
      | Raises e => Raises e
      end
  | GetAll l => get_all c l
  end.

Definition log_call (c : ApiCall) (w : World) : World :=
  {| api_calls := api_calls w ++ [c]; deprecations := deprecations w |}.

(** The selected call is a single lookup, by id or by name, and it came back
    with [None]. *)
Definition single_lookup_yields_None (self : AnsibleHcloudServerInfo) : Prop :=
  match strategy_by_precedence (params (module self)) with
  | GetById i => get_by_id (client self) i = Returns None
  | GetByName n => get_by_name (client self) n = Returns None
  | GetAll _ => False
  end.

(** The notice of [main] for the legacy name. *)
Definition facts_deprecation : Deprecation :=
  {| dep_msg := "The 'hcloud_server_facts' module has been renamed to 'hcloud_server_info', and the renamed one no longer returns ansible_facts";
     dep_version := "2.0.0";
     dep_collection_name := "hetzner.hcloud" |}.

(** ** Examples: servers and clients to run the module on *)

Definition my_server : Server := {|
  server_id := 1937415;
  server_name := "my-server";
  status := "running";
  image := Some {| image_name := "ubuntu-20.04" |};
  placement_group := Some {| placement_group_name := "4711" |};
  public_net :=
    {| ipv4 := Some {| ipv4_ip := "116.203.104.109" |};
       ipv6 := Some {| ipv6_ip := "2a01:4f8:1c1c:c140::/64" |} |};
  private_net :=
    [ {| network := {| network_name := "my-network" |}; ip := "192.168.1.1" |};
      {| network := {| network_name := "another-network" |};
         ip := "10.185.50.40" |} ];
  server_type := {| server_type_name := "cx11" |};
  datacenter :=
    {| datacenter_name := "fsn1-dc14";
       location := {| location_name := "fsn1" |} |};
  rescue_enabled := false;
  backup_window := Some "22-02";
  labels := {[ "env" := "prod" ]};
  protection := {| delete := false; rebuild := true |}
|}.

(** A server with every optional attribute absent. *)
Definition bare_server : Server := {|
  server_id := 42;
  server_name := "bare";
  status := "off";
  image := None;
  placement_group := None;
  public_net := {| ipv4 := None; ipv6 := None |};
  private_net := [];
  server_type := {| server_type_name := "cx21" |};
  datacenter :=
    {| datacenter_name := "nbg1-dc3";
       location := {| location_name := "nbg1" |} |};
  rescue_enabled := true;
  backup_window := None;
  labels := ∅;
  protection := {| delete := true; rebuild := false |}
|}.

Definition APIException (message : string) : PyExc :=
  {| exc_class := "APIException"; exc_is_Exception := true;
     exc_message := Some message |}.

(** [requests.exceptions.ConnectionError] under Python 3: derives from
    [Exception] and has no [message] attribute. *)
Definition ConnectionError : PyExc :=
  {| exc_class := "ConnectionError"; exc_is_Exception := true;
     exc_message := None |}.

(** A selector that is a bare key matches the servers that carry a label
    with this key. *)
Definition has_label (selector : string) (lbls : gmap string string) : bool :=
  bool_decide (is_Some (lbls !! selector)).

(** A client in front of a fixed list of servers.  Like the SDK, a lookup by
    an unknown id raises [APIException] and a lookup by an unknown name
    returns [None]. *)
Definition fake_client (store : list Server) : ServersClient := {|
  get_by_id i :=
    match List.find (λ s, bool_decide (server_id s = i)) store with
    | Some s => Returns (Some s)
    | None => Raises (APIException "server not found")
    end;
  get_by_name n :=
    Returns (List.find (λ s, bool_decide (server_name s = n)) store);
  get_all selector :=
    Returns (Some <$> match selector with
                      | None => store
                      | Some l => List.filter (λ s, has_label l (labels s)) store
                      end)
|}.

(** A client whose every call raises [e]. *)
Definition failing_client (e : PyExc) : ServersClient := {|
  get_by_id _ := Raises e;
  get_by_name _ := Raises e;
  get_all _ := Raises e
|}.

Definition no_params : Params :=
  {| params_id := None; params_name := None; params_label_selector := None |}.

Definition info_module (p : Params) : AnsibleModule :=
  {| _name := "hcloud_server_info"; params := p |}.

Definition facts_module (p : Params) : AnsibleModule :=
  {| _name := "hcloud_server_facts"; params := p |}.

(** The legacy alias as the host names it when the task calls the module
    through its collection, [hetzner.hcloud]. *)
Definition qualified_facts_module (p : Params) : AnsibleModule :=
  {| _name := "hetzner.hcloud.hcloud_server_facts"; params := p |}.

(** The accessible servers of the examples and the module objects that
    look them up. *)
Definition example_servers : list Server := [bare_server; my_server].

Definition self_by_id : AnsibleHcloudServerInfo :=
  __init__
    (info_module {| params_id := Some 1937415; params_name := None;
                    params_label_selector := None |})
    (fake_client example_servers).

Definition self_by_name : AnsibleHcloudServerInfo :=
  __init__
    (info_module {| params_id := None; params_name := Some "my-server";
                    params_label_selector := None |})
    (fake_client example_servers).

Definition self_by_unknown_name : AnsibleHcloudServerInfo :=
  __init__
    (info_module {| params_id := None; params_name := Some "missing";
                    params_label_selector := Some "env" |})
    (fake_client example_servers).

Definition self_by_label_selector : AnsibleHcloudServerInfo :=
  __init__
    (info_module {| params_id := None; params_name := None;
                    params_label_selector := Some "env" |})
    (fake_client example_servers).

Definition self_no_selector : AnsibleHcloudServerInfo :=
  __init__ (info_module no_params) (fake_client example_servers).

(** [KeyboardInterrupt] derives from [BaseException], not from
    [Exception]. *)
Definition KeyboardInterrupt : PyExc :=
  {| exc_class := "KeyboardInterrupt"; exc_is_Exception := false;
     exc_message := None |}.

(** Base arguments in the style of the collection: a token and an
    endpoint. *)
Definition example_base_arguments : gmap string value :=
  {[ "api_token" := VDict {[ "type" := VStr "str"; "required" := VBool true;
                             "no_log" := VBool true ]};
     "endpoint" := VDict {[ "type" := VStr "str";
                            "default" := VStr "https://api.hetzner.cloud/v1" ]} ]}.

(** A result mapping as a base class may build it: the records next to a
    [changed] flag. *)
Definition get_result_with_changed (self : AnsibleHcloudServerInfo)
  : pyresult (gmap string value) :=
  match _prepare_result self with
  | Returns records =>
      Returns {[ "changed" := VBool false;
                 "hcloud_server_info" := VList records ]}
  | Raises e => Raises e
  end.

(** * Properties *)

(** ** The loop of [_prepare_result] *)

Lemma _prepare_result_body_app tmp server :
  _prepare_result_body tmp server = tmp ++ _prepare_result_body [] server.
Proof.
  destruct server as [server|]; simpl; [done|].
  by rewrite app_nil_r.
Qed.

Lemma _prepare_result_loop_app servers tmp :
  fold_left _prepare_result_body servers tmp
  = tmp ++ fold_left _prepare_result_body servers [].
Proof.
  revert tmp. induction servers as [|server servers IH]; intros tmp; simpl.
  - by rewrite app_nil_r.
  - rewrite IH, (IH (_prepare_result_body [] server)).
    by rewrite (_prepare_result_body_app tmp), app_assoc.
Qed.

Lemma record_of_exists server : ∃ r, record_of server r.
Proof. unfold record_of. simpl. eauto. Qed.

(** The loop appends one record for each server object, in order, and
    nothing for a [None]. *)
Lemma _prepare_result_loop servers :
  Forall2 record_of (server_objects servers)
    (fold_left _prepare_result_body servers []).
Proof.
  induction servers as [|[server|] servers IH].
  - constructor.
  - change (fold_left _prepare_result_body (Some server :: servers) [])
      with (fold_left _prepare_result_body servers
              (_prepare_result_body [] (Some server))).
    rewrite _prepare_result_loop_app.
    destruct (record_of_exists server) as [r Hr].
    unfold record_of in Hr. rewrite Hr. simpl.
    constructor; [exact Hr | exact IH].
  - exact IH.
Qed.

Lemma _prepare_result_set self servers :
  _prepare_result (set_hcloud_server_info self servers)
  = Returns (fold_left _prepare_result_body servers []).
Proof. reflexivity. Qed.

(** ** What [get_servers] does, case by case *)

Lemma get_servers_eq self w :
  let call := strategy_by_precedence (params (module self)) in
  get_servers self w =
    match perform (client self) call with
    | Returns servers =>
        (log_call call w, Normal (set_hcloud_server_info self servers))
    | Raises e =>
        if exc_is_Exception e then
          match exc_message e with
          | Some msg => (log_call call w, Exited (FailJson msg))
          | None => (log_call call w, Raised AttributeError)
          end
        else (log_call call w, Raised e)
    end.
Proof.
  unfold get_servers, try_except_Exception, strategy_by_precedence, perform,
    getattr_message, invoke, log_call, mbind, M_bind, lift, mret, M_ret,
    raise, fail_json.
  destruct (params_id _) as [i|]; [|destruct (params_name _) as [n|];
    [|destruct (params_label_selector _) as [l|]]]; simpl.
  - destruct (get_by_id _ i) as [r|e]; simpl; [done|].
    destruct (exc_is_Exception e); [|done]. by destruct (exc_message e).
  - destruct (get_by_name _ n) as [r|e]; simpl; [done|].
    destruct (exc_is_Exception e); [|done]. by destruct (exc_message e).
  - destruct (get_all _ (Some l)) as [r|e]; simpl; [done|].
    destruct (exc_is_Exception e); [|done]. by destruct (exc_message e).
  - destruct (get_all _ None) as [r|e]; simpl; [done|].
    destruct (exc_is_Exception e); [|done]. by destruct (exc_message e).
Qed.

(** When the selected call returns, [get_servers] returns with the list
    stored, and [_prepare_result] then returns too. *)
Lemma get_servers_returns self w servers :
  perform (client self) (strategy_by_precedence (params (module self)))
    = Returns servers →
  get_servers self w =
    (log_call (strategy_by_precedence (params (module self))) w,
     Normal (set_hcloud_server_info self servers)).
Proof. intros H. by rewrite get_servers_eq, H. Qed.

(** An exception that derives from [Exception] and has a [message] ends the
    module through [fail_json] with that message, after the one call. *)
Lemma get_servers_fail_json self w e msg :
  perform (client self) (strategy_by_precedence (params (module self)))
    = Raises e →
  exc_is_Exception e = true →
  exc_message e = Some msg →
  get_servers self w =
    (log_call (strategy_by_precedence (params (module self))) w,
     Exited (FailJson msg)).
Proof. intros H He Hm. by rewrite get_servers_eq, H, He, Hm. Qed.

(** C1: for every assignment of the three selection parameters and every
    client, [get_servers] makes exactly one call on the client, the one the
    precedence id > name > label_selector > none selects: by id when [id] is
    set, else by name when [name] is set, else the list filtered by
    [label_selector] when that is set, else the unfiltered list. *)
Theorem get_servers_one_call_by_precedence self w :
  api_calls (get_servers self w).1
  = api_calls w ++
      [match params_id (params (module self)),
             params_name (params (module self)),
             params_label_selector (params (module self)) with
       | Some i, _, _ => GetById i
       | None, Some n, _ => GetByName n
       | None, None, Some l => GetAll (Some l)
       | None, None, None => GetAll None
       end].
Proof.
  rewrite get_servers_eq. simpl.
  fold (strategy_by_precedence (params (module self))).
  destruct (perform _ _) as [servers|e]; [done|].
  destruct (exc_is_Exception e); [|done]. by destruct (exc_message e).
Qed.

(** ** The fields of a record *)

Lemma record_of_keys server r : record_of server r → keys r = Some record_keys.
Proof. unfold record_of. simpl. intros [= <-]. vm_compute. reflexivity. Qed.

Lemma record_of_id server r :
  record_of server r → field r "id" = Some (VStr (to_native (server_id server))).
Proof. unfold record_of. simpl. by intros [= <-]. Qed.

Lemma record_of_name server r :
  record_of server r →
  field r "name" = Some (VStr (to_native (server_name server))).
Proof. unfold record_of. simpl. by intros [= <-]. Qed.

Lemma record_of_status server r :
  record_of server r → field r "status" = Some (VStr (to_native (status server))).
Proof. unfold record_of. simpl. by intros [= <-]. Qed.

Lemma record_of_labels server r :
  record_of server r → field r "labels" = Some (VDict (VStr <$> labels server)).
Proof. unfold record_of. simpl. by intros [= <-]. Qed.

Lemma record_of_image server r :
  record_of server r →
  field r "image" =
    Some (match image server with
          | None => VNone
          | Some i => VStr (image_name i)
          end).
Proof. unfold record_of. simpl. by intros [= <-]. Qed.

Lemma record_of_placement_group server r :
  record_of server r →
  field r "placement_group" =
    Some (match placement_group server with
          | None => VNone
          | Some g => VStr (placement_group_name g)
          end).
Proof. unfold record_of. simpl. by intros [= <-]. Qed.

Lemma record_of_ipv4_address server r :
  record_of server r →
  field r "ipv4_address" =
    Some (match ipv4 (public_net server) with
          | None => VNone
          | Some a => VStr (ipv4_ip a)
          end).
Proof. unfold record_of. simpl. by intros [= <-]. Qed.

Lemma record_of_ipv6 server r :
  record_of server r →
  field r "ipv6" =
    Some (match ipv6 (public_net server) with
          | None => VNone
          | Some a => VStr (ipv6_ip a)
          end).
Proof. unfold record_of. simpl. by intros [= <-]. Qed.

Lemma record_of_backup_window server r :
  record_of server r →
  field r "backup_window" =
    Some (match backup_window server with
          | None => VNone
          | Some b => VStr b
          end).
Proof. unfold record_of. simpl. by intros [= <-]. Qed.

Lemma record_of_private_networks server r :
  record_of server r →
  field r "private_networks" =
    Some (VList ((λ net, VStr (network_name (network net)))
                   <$> private_net server)).
Proof. unfold record_of. simpl. by intros [= <-]. Qed.

Lemma record_of_private_networks_info server r :
  record_of server r →
  field r "private_networks_info" =
    Some (VList ((λ net, VDict (<["name" := VStr (network_name (network net))]>
                                  {["ip" := VStr (ip net)]}))
                   <$> private_net server)).
Proof. unfold record_of. simpl. by intros [= <-]. Qed.

(** C2: the field mapping is total.  Whatever list a lookup stored,
    [_prepare_result] returns, with one record for each server object in
    it; every record has exactly the 17 listed keys, and [image],
    [placement_group], [ipv4_address], [ipv6] and [backup_window] are null
    when the server has no such object. *)
Theorem prepare_result_total self servers :
  ∃ out,
    _prepare_result (set_hcloud_server_info self servers) = Returns out ∧
    Forall2 (λ server r,
      keys r = Some {[ "id"; "name"; "status"; "server_type"; "ipv4_address";
                       "ipv6"; "private_networks"; "private_networks_info";
                       "image"; "datacenter"; "location"; "placement_group";
                       "rescue_enabled"; "backup_window"; "labels";
                       "delete_protection"; "rebuild_protection" ]} ∧
      (image server = None → field r "image" = Some VNone) ∧
      (placement_group server = None →
         field r "placement_group" = Some VNone) ∧
      (ipv4 (public_net server) = None →
         field r "ipv4_address" = Some VNone) ∧
      (ipv6 (public_net server) = None → field r "ipv6" = Some VNone) ∧
      (backup_window server = None → field r "backup_window" = Some VNone))
      (server_objects servers) out.
Proof.
  eexists. split; [apply _prepare_result_set|].
  eapply Forall2_impl; [apply _prepare_result_loop|].
  intros server r Hr. split; [exact (record_of_keys _ _ Hr)|].
  rewrite (record_of_image _ _ Hr), (record_of_placement_group _ _ Hr),
    (record_of_ipv4_address _ _ Hr), (record_of_ipv6 _ _ Hr),
    (record_of_backup_window _ _ Hr).
  repeat split; by intros ->.
Qed.

(** C3, where the code departs from the claim: the call raises an exception
    that derives from [Exception] and has no [message] attribute.  The
    handler's [e.message] raises [AttributeError], which leaves
    [get_servers]; [fail_json] is not reached. *)
Theorem get_servers_exception_without_message :
  get_servers (__init__ (info_module no_params) (failing_client ConnectionError))
    world0
  = ({| api_calls := [GetAll None]; deprecations := [] |},
     Raised AttributeError).
Proof. reflexivity. Qed.

(** ** Single lookups *)

Lemma strategy_by_id p i :
  params_id p = Some i → strategy_by_precedence p = GetById i.
Proof. unfold strategy_by_precedence. by intros ->. Qed.

Lemma strategy_by_name p n :
  params_id p = None → params_name p = Some n →
  strategy_by_precedence p = GetByName n.
Proof. unfold strategy_by_precedence. by intros -> ->. Qed.

Lemma strategy_by_label_selector p l :
  params_id p = None → params_name p = None →
  params_label_selector p = Some l →
  strategy_by_precedence p = GetAll (Some l).
Proof. unfold strategy_by_precedence. by intros -> -> ->. Qed.

(** The output for a one-element list: at most one record, and a record
    only for a server object. *)
Lemma single_lookup_output (r : option Server) (out : list value) :
  Forall2 record_of (server_objects [r]) out →
  (length out ≤ 1)%nat ∧
  ∀ rec, rec ∈ out → ∃ server, r = Some server ∧ record_of server rec.
Proof.
  intros HF. split.
  - rewrite <- (Forall2_length _ _ _ HF). destruct r; simpl; lia.
  - intros rec Hin. destruct r as [server|]; simpl in HF.
    + inversion HF as [|? ? ? ? Hrec Hnil]; subst.
      inversion Hnil; subst. apply list_elem_of_singleton in Hin as ->. eauto.
    + inversion HF; subst. by apply not_elem_of_nil in Hin.
Qed.

(** C4: with [id] set (whatever [name] and [label_selector] are) and a
    client whose lookup by id returns, the module produces an output list;
    it has at most one record, and, the client answering a lookup by id
    with a server of that id, the [id] field of a record in it is the
    string of the requested id. *)
Theorem by_id_at_most_one_record self w i (r : option Server) :
  params_id (params (module self)) = Some i →
  get_by_id (client self) i = Returns r →
  (∀ server, r = Some server → server_id server = i) →
  ∃ w' self' out,
    get_servers self w = (w', Normal self') ∧
    _prepare_result self' = Returns out ∧
    (length out ≤ 1)%nat ∧
    ∀ rec, rec ∈ out → field rec "id" = Some (VStr (to_native i)).
Proof.
  intros Hid Hget Hmatch.
  eexists _, _, _. split; [|split; [apply _prepare_result_set|]].
  - apply get_servers_returns.
    rewrite (strategy_by_id _ _ Hid). simpl. by rewrite Hget.
  - destruct (single_lookup_output r _ (_prepare_result_loop [r]))
      as [Hlen Hrec].
    split; [exact Hlen|].
    intros rec Hin. destruct (Hrec rec Hin) as (server & Hr & Hof).
    rewrite (record_of_id _ _ Hof). by rewrite (Hmatch _ Hr).
Qed.

(** C5: with [name] set and no [id] (whatever [label_selector] is) and a
    client whose lookup by name returns, the module produces an output
    list; it has at most one record, and, the client answering a lookup by
    name with a server of that name, the [name] field of a record in it is
    the requested name. *)
Theorem by_name_at_most_one_record self w n (r : option Server) :
  params_id (params (module self)) = None →
  params_name (params (module self)) = Some n →
  get_by_name (client self) n = Returns r →
  (∀ server, r = Some server → server_name server = n) →
  ∃ w' self' out,
    get_servers self w = (w', Normal self') ∧
    _prepare_result self' = Returns out ∧
    (length out ≤ 1)%nat ∧
    ∀ rec, rec ∈ out → field rec "name" = Some (VStr n).
Proof.
  intros Hid Hname Hget Hmatch.
  eexists _, _, _. split; [|split; [apply _prepare_result_set|]].
  - apply get_servers_returns.
    rewrite (strategy_by_name _ _ Hid Hname). simpl. by rewrite Hget.
  - destruct (single_lookup_output r _ (_prepare_result_loop [r]))
      as [Hlen Hrec].
    split; [exact Hlen|].
    intros rec Hin. destruct (Hrec rec Hin) as (server & Hr & Hof).
    rewrite (record_of_name _ _ Hof). by rewrite (Hmatch _ Hr).
Qed.

(** ** Lookup by label selector *)

Lemma server_objects_Some (servers : list Server) :
  server_objects (Some <$> servers) = servers.
Proof.
  unfold server_objects.
  induction servers as [|server servers IH]; simpl; [done|].
  f_equal. exact IH.
Qed.

(** C6: with [label_selector] set and neither [id] nor [name], and a client
    whose filtered list is the accessible servers whose labels match the
    selector, the output has exactly one record for each matching server,
    in the client's order, and every record of the output carries labels
    that match: there is none for a server that does not match. *)
Theorem by_label_selector_exactly_matching
    (matches : string → gmap string string → bool)
    (accessible : list Server) self w selector :
  params_id (params (module self)) = None →
  params_name (params (module self)) = None →
  params_label_selector (params (module self)) = Some selector →
  get_all (client self) (Some selector)
    = Returns (Some <$> List.filter (λ s, matches selector (labels s))
                          accessible) →
  ∃ w' self' out,
    get_servers self w = (w', Normal self') ∧
    _prepare_result self' = Returns out ∧
    Forall2 record_of
      (List.filter (λ s, matches selector (labels s)) accessible) out ∧
    ∀ rec, rec ∈ out →
      ∃ server, server ∈ accessible ∧ record_of server rec ∧
        matches selector (labels server) = true ∧
        field rec "labels" = Some (VDict (VStr <$> labels server)).
Proof.
  intros Hid Hname Hsel Hget.
  eexists _, _, _. split; [|split; [apply _prepare_result_set|]].
  - apply get_servers_returns.
    rewrite (strategy_by_label_selector _ _ Hid Hname Hsel). exact Hget.
  - pose proof (_prepare_result_loop
      (Some <$> List.filter (λ s, matches selector (labels s)) accessible))
      as HF.
    rewrite server_objects_Some in HF. split; [exact HF|].
    intros rec Hin.
    destruct (proj1 (list_elem_of_lookup _ _) Hin) as [k Hk].
    destruct (Forall2_lookup_r _ _ _ _ _ HF Hk) as (server & Hs & Hof).
    exists server.
    apply list_elem_of_lookup_2, list_elem_of_In, filter_In in Hs
      as [Hacc Hm].
    split; [by apply list_elem_of_In|].
    split; [exact Hof|]. split; [exact Hm|]. exact (record_of_labels _ _ Hof).
Qed.

(** ** main *)

Lemma main_eq get_result m client w :
  let old := bool_decide (_name m = "hcloud_server_facts") in
  let call := strategy_by_precedence (params m) in
  let w1 := if old
            then {| api_calls := api_calls w;
                    deprecations := deprecations w ++ [facts_deprecation] |}
            else w in
  main get_result m client w =
    match perform client call with
    | Returns servers =>
        match get_result (set_hcloud_server_info (__init__ m client) servers) with
        | Returns result =>
            match result !! "hcloud_server_info" with
            | Some v =>
                (log_call call w1,
                 Exited (ExitJson
                   (if old
                    then {[ "ansible_facts" :=
                              VDict {[ "hcloud_server_facts" := v ]} ]}
                    else {[ "hcloud_server_info" := v ]})))
            | None => (log_call call w1, Raised KeyError)
            end
        | Raises e => (log_call call w1, Raised e)
        end
    | Raises e =>
        if exc_is_Exception e then
          match exc_message e with
          | Some msg => (log_call call w1, Exited (FailJson msg))
          | None => (log_call call w1, Raised AttributeError)
          end
        else (log_call call w1, Raised e)
    end.
Proof.
  intros old call w1. unfold main. fold old.
  unfold mbind, M_bind at 1.
  assert (Hdep : (if old
                  then deprecate
                         ("The 'hcloud_server_facts' module has been renamed to 'hcloud_server_info', "
                          +:+ "and the renamed one no longer returns ansible_facts")
                         "2.0.0" "hetzner.hcloud"
                  else mret ()) w = (w1, Normal ())).
  { subst w1. by destruct old. }
  rewrite Hdep. unfold M_bind at 1. rewrite get_servers_eq. simpl.
  fold call.
  destruct (perform client call) as [servers|e].
  - unfold M_bind, lift, subscript, exit_json, mret, M_ret, raise.
    destruct (get_result _) as [result|e]; simpl; [|done].
    destruct old; by destruct (result !! "hcloud_server_info").
  - destruct (exc_is_Exception e); [|done]. by destruct (exc_message e).
Qed.

(** With the base class's [get_result], a lookup that returns makes [main]
    leave through [exit_json] with the list of records under
    [hcloud_server_info]. *)
Lemma main_exit_json p client w servers :
  perform client (strategy_by_precedence p) = Returns servers →
  main Hcloud_get_result (info_module p) client w =
    (log_call (strategy_by_precedence p) w,
     Exited (ExitJson
       {[ "hcloud_server_info" :=
            VList (fold_left _prepare_result_body servers []) ]})).
Proof. intros H. rewrite main_eq. simpl. by rewrite H. Qed.

(** X18: when the module's [_name] is exactly the string
    [hcloud_server_facts], [main] records the deprecation notice and makes
    the same call as under any name that differs from that string; where the
    other run hands records back under [hcloud_server_info], this run hands
    the same records back under [hcloud_server_facts] inside
    [ansible_facts], and where the other run fails or raises, this run does
    the same.  The test is on the exact string: every other name, the
    collection-qualified alias included, counts as the other run.
    [get_result] is any function of the stored list. *)
Theorem legacy_name_same_records get_result p client n w :
  n ≠ "hcloud_server_facts" →
  (∀ self self',
     hcloud_server_info self = hcloud_server_info self' →
     get_result self = get_result self') →
  let legacy := main get_result (facts_module p) client w in
  let current := main get_result {| _name := n; params := p |} client w in
  deprecations legacy.1 = deprecations w ++ [facts_deprecation] ∧
  deprecations current.1 = deprecations w ∧
  api_calls legacy.1 = api_calls current.1 ∧
  match current.2 with
  | Exited (ExitJson kwargs) =>
      ∃ records,
        kwargs = {[ "hcloud_server_info" := records ]} ∧
        legacy.2 = Exited (ExitJson
          {[ "ansible_facts" := VDict {[ "hcloud_server_facts" := records ]} ]})
  | o => legacy.2 = o
  end.
Proof.
  intros Hn Hres legacy current. subst legacy current.
  rewrite !main_eq. simpl.
  rewrite (bool_decide_eq_false_2 _ Hn).
  destruct (perform client (strategy_by_precedence p)) as [servers|e]; simpl.
  - rewrite (Hres
      (set_hcloud_server_info (__init__ (facts_module p) client) servers)
      (set_hcloud_server_info
         (__init__ {| _name := n; params := p |} client) servers)
      eq_refl).
    destruct (get_result _) as [result|e]; simpl; [|done].
    destruct (result !! "hcloud_server_info") as [v|]; simpl; [|done].
    repeat split; eauto.
  - destruct (exc_is_Exception e); [|done]. by destruct (exc_message e).
Qed.

(** ** No null entry *)

Lemma record_of_not_None server : ¬ record_of server VNone.
Proof. unfold record_of. simpl. by intros [=]. Qed.

Lemma _prepare_result_no_None self servers :
  ∃ out,
    _prepare_result (set_hcloud_server_info self servers) = Returns out ∧
    VNone ∉ out.
Proof.
  eexists. split; [apply _prepare_result_set|].
  intros Hin. apply list_elem_of_lookup_1 in Hin as [k Hk].
  destruct (Forall2_lookup_r _ _ _ _ _ (_prepare_result_loop servers) Hk)
    as (server & _ & Hof).
  exact (record_of_not_None _ Hof).
Qed.

(** C8: when the selected lookup is by id or by name and it yields [None],
    [get_servers] returns and the output list is empty; and whatever list a
    lookup stored, the output list has no null entry. *)
Theorem output_has_no_null_entry self w :
  single_lookup_yields_None self →
  (∃ w' self',
     get_servers self w = (w', Normal self') ∧
     _prepare_result self' = Returns []) ∧
  (∀ servers, ∃ out,
     _prepare_result (set_hcloud_server_info self servers) = Returns out ∧
     VNone ∉ out).
Proof.
  intros Hnone. split; [|apply _prepare_result_no_None].
  exists (log_call (strategy_by_precedence (params (module self))) w),
    (set_hcloud_server_info self [None]).
  split; [|done].
  apply get_servers_returns. unfold single_lookup_yields_None in Hnone.
  destruct (strategy_by_precedence _); simpl; [by rewrite Hnone..|done].
Qed.

(** ** Private networks *)

(** C9: in every record, [private_networks] and [private_networks_info]
    come from the server's [private_net], element by element: both have its
    length, the k-th name is the name of the k-th network, and the k-th info
    is a dictionary whose [name] is the k-th name. *)
Theorem private_networks_aligned self servers :
  ∃ out,
    _prepare_result (set_hcloud_server_info self servers) = Returns out ∧
    Forall2 (λ server r,
      ∃ names infos,
        field r "private_networks" = Some (VList names) ∧
        field r "private_networks_info" = Some (VList infos) ∧
        length names = length (private_net server) ∧
        length infos = length names ∧
        (∀ k net, private_net server !! k = Some net →
           names !! k = Some (VStr (network_name (network net)))) ∧
        (∀ k n, names !! k = Some n →
           ∃ info, infos !! k = Some info ∧ field info "name" = Some n))
      (server_objects servers) out.
Proof.
  eexists. split; [apply _prepare_result_set|].
  eapply Forall2_impl; [apply _prepare_result_loop|].
  intros server r Hr. eexists _, _.
  split; [exact (record_of_private_networks _ _ Hr)|].
  split; [exact (record_of_private_networks_info _ _ Hr)|].
  rewrite !length_fmap. split; [done|]. split; [done|]. split.
  - intros k net Hk. by rewrite list_lookup_fmap, Hk.
  - intros k n. rewrite !list_lookup_fmap.
    destruct (private_net server !! k) as [net|]; simpl; [|done].
    intros [= <-]. eexists. split; [done|]. reflexivity.
Qed.

(** ** String conversion *)

(** C10: in every record, [id] is the string that [to_native] makes of the
    server's numeric id, not the integer, and [name] and [status] are the
    strings that [to_native] makes of the server's name and status. *)
Theorem id_name_status_are_strings self servers :
  ∃ out,
    _prepare_result (set_hcloud_server_info self servers) = Returns out ∧
    Forall2 (λ server r,
      field r "id" = Some (VStr (to_native (server_id server))) ∧
      field r "id" ≠ Some (VInt (server_id server)) ∧
      field r "name" = Some (VStr (to_native (server_name server))) ∧
      field r "status" = Some (VStr (to_native (status server))))
      (server_objects servers) out.
Proof.
  eexists. split; [apply _prepare_result_set|].
  eapply Forall2_impl; [apply _prepare_result_loop|].
  intros server r Hr.
  rewrite (record_of_id _ _ Hr), (record_of_name _ _ Hr),
    (record_of_status _ _ Hr).
  repeat split. by intros [=].
Qed.

(** ** The module on the example servers *)

Example to_native_id : to_native 1937415 = "1937415".
Proof. reflexivity. Qed.

Example to_native_negative : to_native (-7) = "-7".
Proof. reflexivity. Qed.

Example to_native_name : to_native "my-server" = "my-server".
Proof. reflexivity. Qed.

Example record_of_bare_server :
  _prepare_result_body [] (Some bare_server) =
    [VDict (list_to_map [
       ("id", VStr "42"); ("name", VStr "bare"); ("ipv4_address", VNone);
       ("ipv6", VNone); ("private_networks", VList []);
       ("private_networks_info", VList []); ("image", VNone);
       ("server_type", VStr "cx21"); ("datacenter", VStr "nbg1-dc3");
       ("location", VStr "nbg1"); ("placement_group", VNone);
       ("rescue_enabled", VBool true); ("backup_window", VNone);
       ("labels", VDict ∅); ("status", VStr "off");
       ("delete_protection", VBool true);
       ("rebuild_protection", VBool false)])].
Proof. vm_compute. reflexivity. Qed.

Example main_lists_all_servers :
  main Hcloud_get_result (info_module no_params)
    (fake_client [bare_server; my_server]) world0
  = ({| api_calls := [GetAll None]; deprecations := [] |},
     Exited (ExitJson
       {[ "hcloud_server_info" :=
            VList (_prepare_result_body [] (Some bare_server)
                   ++ _prepare_result_body [] (Some my_server)) ]})).
Proof. vm_compute. reflexivity. Qed.

Example main_unknown_id_fails :
  main Hcloud_get_result
    (info_module {| params_id := Some 7; params_name := Some "my-server";
                    params_label_selector := None |})
    (fake_client [bare_server; my_server]) world0
  = ({| api_calls := [GetById 7]; deprecations := [] |},
     Exited (FailJson "server not found")).
Proof. vm_compute. reflexivity. Qed.

Example main_connection_error :
  main Hcloud_get_result (info_module no_params)
    (failing_client ConnectionError) world0
  = ({| api_calls := [GetAll None]; deprecations := [] |},
     Raised AttributeError).
Proof. vm_compute. reflexivity. Qed.

(** ** The theorems at the example servers *)

Lemma by_id_at_most_one_record_witness :
  ∃ w' self' out,
    get_servers self_by_id world0 = (w', Normal self') ∧
    _prepare_result self' = Returns out ∧
    (length out ≤ 1)%nat ∧
    ∀ rec, rec ∈ out → field rec "id" = Some (VStr "1937415").
Proof.
  apply (by_id_at_most_one_record self_by_id world0 1937415 (Some my_server)).
  - reflexivity.
  - reflexivity.
  - intros server [= <-]. reflexivity.
Defined.

Lemma by_name_at_most_one_record_witness :
  ∃ w' self' out,
    get_servers self_by_name world0 = (w', Normal self') ∧
    _prepare_result self' = Returns out ∧
    (length out ≤ 1)%nat ∧
    ∀ rec, rec ∈ out → field rec "name" = Some (VStr "my-server").
Proof.
  apply (by_name_at_most_one_record self_by_name world0 "my-server"
           (Some my_server)).
  - reflexivity.
  - reflexivity.
  - reflexivity.
  - intros server [= <-]. reflexivity.
Defined.

Lemma by_label_selector_exactly_matching_witness :
  ∃ w' self' out,
    get_servers self_by_label_selector world0 = (w', Normal self') ∧
    _prepare_result self' = Returns out ∧
    Forall2 record_of [my_server] out ∧
    ∀ rec, rec ∈ out →
      ∃ server, server ∈ example_servers ∧ record_of server rec ∧
        has_label "env" (labels server) = true ∧
        field rec "labels" = Some (VDict (VStr <$> labels server)).
Proof.
  apply (by_label_selector_exactly_matching has_label example_servers
           self_by_label_selector world0 "env").
  - reflexivity.
  - reflexivity.
  - reflexivity.
  - reflexivity.
Defined.

Lemma output_has_no_null_entry_witness :
  (∃ w' self',
     get_servers self_by_unknown_name world0 = (w', Normal self') ∧
     _prepare_result self' = Returns []) ∧
  (∀ servers, ∃ out,
     _prepare_result (set_hcloud_server_info self_by_unknown_name servers)
       = Returns out ∧
     VNone ∉ out).
Proof.
  apply (output_has_no_null_entry self_by_unknown_name world0).
  reflexivity.
Defined.

Lemma legacy_name_same_records_witness :
  "hcloud_server_info" ≠ "hcloud_server_facts" ∧
  deprecations
    (main Hcloud_get_result (facts_module no_params)
       (fake_client example_servers) world0).1 = [facts_deprecation] ∧
  ∃ records,
    (main Hcloud_get_result (info_module no_params)
       (fake_client example_servers) world0).2
      = Exited (ExitJson {[ "hcloud_server_info" := records ]}) ∧
    (main Hcloud_get_result (facts_module no_params)
       (fake_client example_servers) world0).2
      = Exited (ExitJson
          {[ "ansible_facts" := VDict {[ "hcloud_server_facts" := records ]} ]}).
Proof.
  assert (Hn : "hcloud_server_info" ≠ "hcloud_server_facts") by done.
  assert (Hres : ∀ self self',
            hcloud_server_info self = hcloud_server_info self' →
            Hcloud_get_result self = Hcloud_get_result self').
  { intros self self' H. unfold Hcloud_get_result, _prepare_result.
    by rewrite H. }
  destruct (legacy_name_same_records Hcloud_get_result no_params
              (fake_client example_servers) "hcloud_server_info" world0
              Hn Hres) as (Hdep & _ & _ & Hout).
  split; [exact Hn|]. split; [exact Hdep|].
  change {| _name := "hcloud_server_info"; params := no_params |}
    with (info_module no_params) in Hout.
  rewrite (main_exit_json no_params (fake_client example_servers) world0
             (Some <$> example_servers) eq_refl) in Hout |- *.
  simpl in Hout. destruct Hout as (records & Hk & Hlegacy).
  exists records. split; [by rewrite <- Hk|exact Hlegacy].
Defined.

(** * Further properties of the module *)

(** ** The unfiltered list *)

(** X1: with no selection parameter and a client whose unfiltered list
    returns the accessible servers, the one call made is [get_all()] without
    selector and the output has exactly one record for each accessible
    server, in the client's order. *)
Theorem no_selector_lists_every_server (accessible : list Server) self w :
  params_id (params (module self)) = None →
  params_name (params (module self)) = None →
  params_label_selector (params (module self)) = None →
  get_all (client self) None = Returns (Some <$> accessible) →
  ∃ w' self' out,
    get_servers self w = (w', Normal self') ∧
    api_calls w' = api_calls w ++ [GetAll None] ∧
    _prepare_result self' = Returns out ∧
    Forall2 record_of accessible out.
Proof.
  intros Hid Hname Hsel Hget.
  assert (Hcall : strategy_by_precedence (params (module self)) = GetAll None).
  { unfold strategy_by_precedence. by rewrite Hid, Hname, Hsel. }
  eexists _, _, _. split.
  - apply get_servers_returns. rewrite Hcall. exact Hget.
  - rewrite Hcall. split; [done|]. split; [apply _prepare_result_set|].
    rewrite <- (server_objects_Some accessible) at 1.
    apply _prepare_result_loop.
Qed.

Lemma no_selector_lists_every_server_witness :
  ∃ w' self' out,
    get_servers self_no_selector world0 = (w', Normal self') ∧
    api_calls w' = [GetAll None] ∧
    _prepare_result self' = Returns out ∧
    Forall2 record_of [bare_server; my_server] out.
Proof.
  apply (no_selector_lists_every_server example_servers self_no_selector
           world0); reflexivity.
Defined.

(** ** Parameters of lower priority *)

Lemma strategy_agree p p' :
  params_id p = params_id p' →
  (params_id p = None → params_name p = params_name p') →
  (params_id p = None → params_name p = None →
     params_label_selector p = params_label_selector p') →
  strategy_by_precedence p = strategy_by_precedence p'.
Proof.
  unfold strategy_by_precedence. intros Hid Hname Hsel. rewrite <- Hid.
  destruct (params_id p) as [i|]; [done|].
  rewrite <- (Hname eq_refl).
  destruct (params_name p) as [n|]; [done|].
  by rewrite <- (Hsel eq_refl eq_refl).
Qed.

(** X2: the selection parameters are not exclusive, the ones after the
    first that is set are ignored: two runs whose parameters agree on [id],
    on [name] when [id] is unset, and on [label_selector] when both are
    unset, make the same call and end the same way.  [get_result] is any
    function of the stored list. *)
Theorem lower_priority_parameters_ignored get_result n p p' client w :
  (∀ self self',
     hcloud_server_info self = hcloud_server_info self' →
     get_result self = get_result self') →
  params_id p = params_id p' →
  (params_id p = None → params_name p = params_name p') →
  (params_id p = None → params_name p = None →
     params_label_selector p = params_label_selector p') →
  main get_result {| _name := n; params := p |} client w
  = main get_result {| _name := n; params := p' |} client w.
Proof.
  intros Hres Hid Hname Hsel. rewrite !main_eq. simpl.
  rewrite <- (strategy_agree p p' Hid Hname Hsel).
  destruct (perform client (strategy_by_precedence p)) as [servers|e]; [|done].
  by rewrite (Hres
    (set_hcloud_server_info (__init__ {| _name := n; params := p |} client)
       servers)
    (set_hcloud_server_info (__init__ {| _name := n; params := p' |} client)
       servers)
    eq_refl).
Qed.

Lemma lower_priority_parameters_ignored_witness :
  main Hcloud_get_result
    {| _name := "hcloud_server_info";
       params := {| params_id := Some 1937415; params_name := Some "bare";
                    params_label_selector := Some "env" |} |}
    (fake_client example_servers) world0
  = main Hcloud_get_result
      {| _name := "hcloud_server_info";
         params := {| params_id := Some 1937415; params_name := None;
                      params_label_selector := None |} |}
      (fake_client example_servers) world0.
Proof.
  apply (lower_priority_parameters_ignored Hcloud_get_result).
  - intros self self' H. unfold Hcloud_get_result, _prepare_result.
    by rewrite H.
  - reflexivity.
  - intros [=].
  - intros [=].
Defined.

(** ** Exceptions of the lookup *)

(** X3: when the selected call raises an exception that derives from
    [Exception] and carries a [message], [main] ends through [fail_json]
    with exactly that message, after that one call and without an output;
    under the legacy name the deprecation notice is recorded first. *)
Theorem main_fails_with_exception_message get_result m client w e msg :
  perform client (strategy_by_precedence (params m)) = Raises e →
  exc_is_Exception e = true →
  exc_message e = Some msg →
  (main get_result m client w).2 = Exited (FailJson msg) ∧
  api_calls (main get_result m client w).1
    = api_calls w ++ [strategy_by_precedence (params m)] ∧
  deprecations (main get_result m client w).1
    = if bool_decide (_name m = "hcloud_server_facts")
      then deprecations w ++ [facts_deprecation]
      else deprecations w.
Proof.
  intros Hcall He Hmsg. rewrite main_eq. simpl. rewrite Hcall, He, Hmsg.
  simpl. by destruct (bool_decide _).
Qed.

Lemma main_fails_with_exception_message_witness :
  (main Hcloud_get_result (facts_module no_params)
     (failing_client (APIException "unauthorized")) world0).2
    = Exited (FailJson "unauthorized") ∧
  api_calls (main Hcloud_get_result (facts_module no_params)
               (failing_client (APIException "unauthorized")) world0).1
    = [GetAll None] ∧
  deprecations (main Hcloud_get_result (facts_module no_params)
                  (failing_client (APIException "unauthorized")) world0).1
    = [facts_deprecation].
Proof.
  apply (main_fails_with_exception_message Hcloud_get_result
           (facts_module no_params)
           (failing_client (APIException "unauthorized")) world0
           (APIException "unauthorized") "unauthorized"); reflexivity.
Defined.

(** X4: an exception that does not derive from [Exception] passes the
    [except Exception] clause: it leaves [get_servers] and [main] as it was
    raised, and [fail_json] is not called. *)
Theorem non_Exception_propagates get_result m client w e :
  perform client (strategy_by_precedence (params m)) = Raises e →
  exc_is_Exception e = false →
  (get_servers (__init__ m client) w).2 = Raised e ∧
  (main get_result m client w).2 = Raised e.
Proof.
  intros Hcall He. rewrite main_eq, get_servers_eq. simpl.
  rewrite Hcall, He. done.
Qed.

Lemma non_Exception_propagates_witness :
  (get_servers (__init__ (info_module no_params)
                  (failing_client KeyboardInterrupt)) world0).2
    = Raised KeyboardInterrupt ∧
  (main Hcloud_get_result (info_module no_params)
     (failing_client KeyboardInterrupt) world0).2
    = Raised KeyboardInterrupt.
Proof.
  apply (non_Exception_propagates Hcloud_get_result (info_module no_params)
           (failing_client KeyboardInterrupt) world0 KeyboardInterrupt);
    reflexivity.
Defined.

(** ** What [get_servers] changes *)

(** X5: when [get_servers] returns, the object keeps its module and its
    client, [hcloud_server_info] holds the list that the selected call
    returned, no deprecation was added, and [_prepare_result] returns on the
    new object (the attribute is no longer [None]). *)
Theorem get_servers_stores_the_lookup self w w' self' :
  get_servers self w = (w', Normal self') →
  module self' = module self ∧
  client self' = client self ∧
  deprecations w' = deprecations w ∧
  ∃ servers out,
    perform (client self) (strategy_by_precedence (params (module self)))
      = Returns servers ∧
    hcloud_server_info self' = Some servers ∧
    _prepare_result self' = Returns out.
Proof.
  rewrite get_servers_eq. simpl.
  destruct (perform _ _) as [servers|e].
  - intros [= <- <-]. repeat split. eexists _, _.
    split; [done|]. split; [done|]. apply _prepare_result_set.
  - destruct (exc_is_Exception e); [|done]. by destruct (exc_message e).
Qed.

Lemma get_servers_stores_the_lookup_witness :
  module (set_hcloud_server_info self_by_name [Some my_server])
    = module self_by_name ∧
  client (set_hcloud_server_info self_by_name [Some my_server])
    = client self_by_name ∧
  deprecations (log_call (GetByName "my-server") world0)
    = deprecations world0 ∧
  ∃ servers out,
    perform (client self_by_name)
      (strategy_by_precedence (params (module self_by_name)))
      = Returns servers ∧
    hcloud_server_info (set_hcloud_server_info self_by_name [Some my_server])
      = Some servers ∧
    _prepare_result (set_hcloud_server_info self_by_name [Some my_server])
      = Returns out.
Proof.
  apply (get_servers_stores_the_lookup self_by_name world0). reflexivity.
Defined.

(** X6: [get_servers] never records a deprecation and never leaves through
    [exit_json]; the only way it ends the module is [fail_json]. *)
Theorem get_servers_never_exits_with_output self w :
  deprecations (get_servers self w).1 = deprecations w ∧
  ∀ kwargs, (get_servers self w).2 ≠ Exited (ExitJson kwargs).
Proof.
  rewrite get_servers_eq. simpl.
  destruct (perform _ _) as [servers|e]; [done|].
  destruct (exc_is_Exception e); [|done]. by destruct (exc_message e).
Qed.



(** ** How [main] ends *)

(** X8: [main] never returns normally, makes exactly one call on the client
    whatever the name it runs under, and when it leaves through [exit_json]
    it hands back a single entry: the value of the result's
    [hcloud_server_info], under [hcloud_server_info] or, for the legacy
    name, under [hcloud_server_facts] inside [ansible_facts].  Other entries
    of the result are not forwarded. *)
Theorem main_ends_with_one_entry get_result m client w :
  (∀ u, (main get_result m client w).2 ≠ Normal u) ∧
  api_calls (main get_result m client w).1
    = api_calls w ++ [strategy_by_precedence (params m)] ∧
  ∀ kwargs,
    (main get_result m client w).2 = Exited (ExitJson kwargs) →
    ∃ servers result v,
      perform client (strategy_by_precedence (params m)) = Returns servers ∧
      get_result (set_hcloud_server_info (__init__ m client) servers)
        = Returns result ∧
      result !! "hcloud_server_info" = Some v ∧
      kwargs = if bool_decide (_name m = "hcloud_server_facts")
               then {[ "ansible_facts" :=
                         VDict {[ "hcloud_server_facts" := v ]} ]}
               else {[ "hcloud_server_info" := v ]}.
Proof.
  rewrite main_eq. simpl.
  destruct (perform client _) as [servers|e].
  - destruct (get_result _) as [result|e] eqn:Hres.
    + destruct (result !! "hcloud_server_info") as [v|] eqn:Hv.
      * simpl. split; [done|]. split; [by destruct (bool_decide _)|].
        intros kwargs [= <-]. eauto 10.
      * simpl. split; [done|]. split; [by destruct (bool_decide _)|]. done.
    + simpl. split; [done|]. split; [by destruct (bool_decide _)|]. done.
  - destruct (exc_is_Exception e); [destruct (exc_message e)|]; simpl;
      (split; [done|]); (split; [by destruct (bool_decide _)|]); done.
Qed.

(** X9: when the result mapping has no [hcloud_server_info] entry, [main]
    ends with [KeyError] after the lookup, and nothing is handed back. *)
Theorem main_missing_key get_result m client w servers result :
  perform client (strategy_by_precedence (params m)) = Returns servers →
  get_result (set_hcloud_server_info (__init__ m client) servers)
    = Returns result →
  result !! "hcloud_server_info" = None →
  (main get_result m client w).2 = Raised KeyError.
Proof.
  intros Hcall Hres Hkey. rewrite main_eq. simpl.
  by rewrite Hcall, Hres, Hkey.
Qed.

Lemma main_missing_key_witness :
  (main (λ _, Returns {[ "changed" := VBool false ]}) (info_module no_params)
     (fake_client example_servers) world0).2
  = Raised KeyError.
Proof.
  apply (main_missing_key (λ _, Returns {[ "changed" := VBool false ]})
           (info_module no_params) (fake_client example_servers) world0
           (Some <$> example_servers) {[ "changed" := VBool false ]});
    reflexivity.
Defined.

Example main_drops_changed :
  (main get_result_with_changed (info_module no_params)
     (fake_client [bare_server]) world0).2
  = Exited (ExitJson
      {[ "hcloud_server_info" :=
           VList (_prepare_result_body [] (Some bare_server)) ]}).
Proof. vm_compute. reflexivity. Qed.

Lemma main_ends_with_one_entry_witness :
  ∃ servers result v,
    perform (fake_client example_servers)
      (strategy_by_precedence (params (facts_module no_params)))
      = Returns servers ∧
    get_result_with_changed
      (set_hcloud_server_info
         (__init__ (facts_module no_params) (fake_client example_servers))
         servers)
      = Returns result ∧
    result !! "hcloud_server_info" = Some v ∧
    ({[ "ansible_facts" :=
          VDict {[ "hcloud_server_facts" :=
                     VList (fold_left _prepare_result_body
                              (Some <$> example_servers) []) ]} ]}
       : gmap string value)
    = if bool_decide (_name (facts_module no_params) = "hcloud_server_facts")
      then {[ "ansible_facts" := VDict {[ "hcloud_server_facts" := v ]} ]}
      else {[ "hcloud_server_info" := v ]}.
Proof.
  apply (proj2 (proj2 (main_ends_with_one_entry get_result_with_changed
                         (facts_module no_params)
                         (fake_client example_servers) world0))).
  vm_compute. reflexivity.
Defined.

(** ** The output list as a whole *)

(** X10: [_prepare_result] works element by element: the output for a list
    that is two lists one after the other is the output for the first
    followed by the output for the second. *)
Theorem prepare_result_app self servers1 servers2 :
  ∃ out1 out2,
    _prepare_result (set_hcloud_server_info self servers1) = Returns out1 ∧
    _prepare_result (set_hcloud_server_info self servers2) = Returns out2 ∧
    _prepare_result (set_hcloud_server_info self (servers1 ++ servers2))
      = Returns (out1 ++ out2).
Proof.
  eexists _, _. split; [apply _prepare_result_set|].
  split; [apply _prepare_result_set|].
  rewrite _prepare_result_set, fold_left_app.
  by rewrite _prepare_result_loop_app.
Qed.

(** X11: the output has as many records as the stored list has server
    objects, never more than the list has elements, and it is empty exactly
    when the list holds no server object (it is empty or all [None]). *)
Theorem prepare_result_length self servers :
  ∃ out,
    _prepare_result (set_hcloud_server_info self servers) = Returns out ∧
    length out = length (server_objects servers) ∧
    (length out ≤ length servers)%nat ∧
    (out = [] ↔ Forall (λ server, server = None) servers).
Proof.
  eexists. split; [apply _prepare_result_set|].
  pose proof (Forall2_length _ _ _ (_prepare_result_loop servers)) as Hlen.
  split; [done|].
  assert (Hle : (length (server_objects servers) ≤ length servers)%nat).
  { unfold server_objects. clear.
    induction servers as [|[s|] servers IH]; cbn; lia. }
  split; [lia|].
  assert (Hnil : server_objects servers = []
                 ↔ Forall (λ server, server = None) servers).
  { unfold server_objects. clear. induction servers as [|[s|] servers IH];
      cbn.
    - split; [constructor|done].
    - split; [done|]. by inversion 1.
    - rewrite IH. split; [by constructor|]. by inversion 1. }
  rewrite <- Hnil. split.
  - intros Hout. rewrite Hout in Hlen. by apply nil_length_inv.
  - intros Hso. rewrite Hso in Hlen. symmetry in Hlen.
    by apply nil_length_inv.
Qed.

(** ** More fields of a record *)

Lemma record_of_plain_fields server r :
  record_of server r →
  field r "server_type" = Some (VStr (server_type_name (server_type server))) ∧
  field r "datacenter" = Some (VStr (datacenter_name (datacenter server))) ∧
  field r "location"
    = Some (VStr (location_name (location (datacenter server)))) ∧
  field r "rescue_enabled" = Some (VBool (rescue_enabled server)) ∧
  field r "delete_protection" = Some (VBool (delete (protection server))) ∧
  field r "rebuild_protection" = Some (VBool (rebuild (protection server))).
Proof. unfold record_of. simpl. by intros [= <-]. Qed.

(** X12: in every record an optional attribute that the server has is
    reported by its string: [image] and [placement_group] by the object's
    name, [ipv4_address] and [ipv6] by the address's [ip], [backup_window]
    by itself. *)
Theorem optional_fields_when_present self servers :
  ∃ out,
    _prepare_result (set_hcloud_server_info self servers) = Returns out ∧
    Forall2 (λ server r,
      (∀ i, image server = Some i →
         field r "image" = Some (VStr (image_name i))) ∧
      (∀ g, placement_group server = Some g →
         field r "placement_group" = Some (VStr (placement_group_name g))) ∧
      (∀ a, ipv4 (public_net server) = Some a →
         field r "ipv4_address" = Some (VStr (ipv4_ip a))) ∧
      (∀ a, ipv6 (public_net server) = Some a →
         field r "ipv6" = Some (VStr (ipv6_ip a))) ∧
      (∀ b, backup_window server = Some b →
         field r "backup_window" = Some (VStr b)))
      (server_objects servers) out.
Proof.
  eexists. split; [apply _prepare_result_set|].
  eapply Forall2_impl; [apply _prepare_result_loop|].
  intros server r Hr.
  rewrite (record_of_image _ _ Hr), (record_of_placement_group _ _ Hr),
    (record_of_ipv4_address _ _ Hr), (record_of_ipv6 _ _ Hr),
    (record_of_backup_window _ _ Hr).
  repeat split; by intros ? ->.
Qed.

(** X13: in every record, [server_type] and [datacenter] are the names of
    the server's type and datacenter, [location] is the name of the
    datacenter's location, [rescue_enabled], [delete_protection] and
    [rebuild_protection] are the server's flags (delete and rebuild not
    exchanged), and [labels] is a dictionary with exactly the server's
    labels. *)
Theorem plain_fields_of_records self servers :
  ∃ out,
    _prepare_result (set_hcloud_server_info self servers) = Returns out ∧
    Forall2 (λ server r,
      field r "server_type"
        = Some (VStr (server_type_name (server_type server))) ∧
      field r "datacenter"
        = Some (VStr (datacenter_name (datacenter server))) ∧
      field r "location"
        = Some (VStr (location_name (location (datacenter server)))) ∧
      field r "rescue_enabled" = Some (VBool (rescue_enabled server)) ∧
      field r "delete_protection"
        = Some (VBool (delete (protection server))) ∧
      field r "rebuild_protection"
        = Some (VBool (rebuild (protection server))) ∧
      ∃ d, field r "labels" = Some (VDict d) ∧
           ∀ k, d !! k = VStr <$> labels server !! k)
      (server_objects servers) out.
Proof.
  eexists. split; [apply _prepare_result_set|].
  eapply Forall2_impl; [apply _prepare_result_loop|].
  intros server r Hr.
  destruct (record_of_plain_fields _ _ Hr) as (H1 & H2 & H3 & H4 & H5 & H6).
  repeat (split; [assumption|]).
  eexists. split; [exact (record_of_labels _ _ Hr)|].
  intros k. apply lookup_fmap.
Qed.

(** X14: in every record, the k-th element of [private_networks_info] is a
    dictionary with exactly the keys [name] and [ip], holding the name of
    the k-th private network of the server and its [ip] as the client gave
    it. *)
Theorem private_networks_info_entries self servers :
  ∃ out,
    _prepare_result (set_hcloud_server_info self servers) = Returns out ∧
    Forall2 (λ server r,
      ∃ infos,
        field r "private_networks_info" = Some (VList infos) ∧
        ∀ k net, private_net server !! k = Some net →
          ∃ info,
            infos !! k = Some info ∧
            keys info = Some {[ "name"; "ip" ]} ∧
            field info "name" = Some (VStr (network_name (network net))) ∧
            field info "ip" = Some (VStr (ip net)))
      (server_objects servers) out.
Proof.
  eexists. split; [apply _prepare_result_set|].
  eapply Forall2_impl; [apply _prepare_result_loop|].
  intros server r Hr. eexists.
  split; [exact (record_of_private_networks_info _ _ Hr)|].
  intros k net Hk. rewrite list_lookup_fmap, Hk. simpl.
  eexists. split; [done|]. split; [|done].
  vm_compute. reflexivity.
Qed.

(** ** Records of different servers *)

Lemma record_of_same_id server server' r :
  record_of server r → record_of server' r →
  server_id server = server_id server'.
Proof.
  intros H H'. pose proof (record_of_id _ _ H) as Hid.
  rewrite (record_of_id _ _ H') in Hid.
  injection Hid as Hid. symmetry. exact (inj pretty _ _ Hid).
Qed.

Lemma records_NoDup (servers : list Server) (out : list value) :
  Forall2 record_of servers out →
  NoDup (server_id <$> servers) → NoDup out.
Proof.
  induction 1 as [|server r servers out Hr HF IH]; [constructor|].
  rewrite fmap_cons. intros [Hnotin Hnodup]%NoDup_cons.
  apply NoDup_cons. split; [|by apply IH].
  intros Hin. apply Hnotin.
  apply list_elem_of_lookup_1 in Hin as [k Hk].
  destruct (Forall2_lookup_r _ _ _ _ _ HF Hk) as (server' & Hs & Hr').
  rewrite (record_of_same_id _ _ _ Hr Hr').
  apply list_elem_of_fmap. exists server'.
  split; [done|]. by apply list_elem_of_lookup_2 in Hs.
Qed.

(** X15: the string of an id determines the id, so servers with different
    ids get different records: when the server objects of the stored list
    have pairwise different ids, no record appears twice in the output. *)
Theorem distinct_ids_distinct_records self servers :
  NoDup (server_id <$> server_objects servers) →
  ∃ out,
    _prepare_result (set_hcloud_server_info self servers) = Returns out ∧
    NoDup out.
Proof.
  intros Hnodup. eexists. split; [apply _prepare_result_set|].
  exact (records_NoDup _ _ (_prepare_result_loop servers) Hnodup).
Qed.

Lemma distinct_ids_distinct_records_witness :
  ∃ out,
    _prepare_result
      (set_hcloud_server_info self_no_selector
         [Some bare_server; None; Some my_server]) = Returns out ∧
    NoDup out.
Proof.
  apply (distinct_ids_distinct_records self_no_selector
           [Some bare_server; None; Some my_server]).
  apply (bool_decide_unpack
           (NoDup (server_id <$> server_objects
                     [Some bare_server; None; Some my_server]))).
  vm_compute. exact I.
Defined.

(** ** define_module *)

(** X16: when the base arguments name none of [id], [name] and
    [label_selector], [define_module] builds an argument spec whose keys are
    these three and the base arguments' keys; [id] is declared an int,
    [name] and [label_selector] strings, none of them required or exclusive
    of the others, every base argument is kept as it is, and check mode is
    supported. *)
Theorem define_module_argument_spec (base : gmap string value) :
  base !! "id" = None →
  base !! "name" = None →
  base !! "label_selector" = None →
  ∃ d,
    define_module base = Returns d ∧
    supports_check_mode d = true ∧
    dom (argument_spec d) = {[ "id"; "name"; "label_selector" ]} ∪ dom base ∧
    argument_spec d !! "id" = Some (VDict {[ "type" := VStr "int" ]}) ∧
    argument_spec d !! "name" = Some (VDict {[ "type" := VStr "str" ]}) ∧
    argument_spec d !! "label_selector"
      = Some (VDict {[ "type" := VStr "str" ]}) ∧
    ∀ k v, base !! k = Some v → argument_spec d !! k = Some v.
Proof.
  intros Hid Hname Hsel. unfold define_module, dict_kwargs. simpl.
  rewrite !bool_decide_eq_true_2 by done. simpl.
  eexists. split; [reflexivity|]. simpl. split; [done|].
  split.
  { rewrite dom_union_L, !dom_insert_L, dom_empty_L. set_solver. }
  split; [by apply lookup_union_Some_l|].
  split; [by apply lookup_union_Some_l|].
  split; [by apply lookup_union_Some_l|].
  intros k v Hk. rewrite lookup_union_r; [done|].
  rewrite !lookup_insert_ne; [apply lookup_empty|congruence..].
Qed.

Lemma define_module_argument_spec_witness :
  ∃ d,
    define_module example_base_arguments = Returns d ∧
    supports_check_mode d = true ∧
    dom (argument_spec d)
      = {[ "id"; "name"; "label_selector" ]} ∪ dom example_base_arguments ∧
    argument_spec d !! "id" = Some (VDict {[ "type" := VStr "int" ]}) ∧
    argument_spec d !! "name" = Some (VDict {[ "type" := VStr "str" ]}) ∧
    argument_spec d !! "label_selector"
      = Some (VDict {[ "type" := VStr "str" ]}) ∧
    ∀ k v, example_base_arguments !! k = Some v →
           argument_spec d !! k = Some v.
Proof.
  apply (define_module_argument_spec example_base_arguments); reflexivity.
Defined.

(** X17: when the base arguments name one of the module's own options,
    the keyword is given twice to [dict] and [define_module] raises
    [TypeError]: a base argument never replaces an option of the module. *)
Theorem define_module_clash (base : gmap string value) :
  is_Some (base !! "id") ∨ is_Some (base !! "name")
    ∨ is_Some (base !! "label_selector") →
  define_module base = Raises TypeError.
Proof.
  intros Hclash. unfold define_module, dict_kwargs. simpl.
  destruct (base !! "id") as [v1|] eqn:H1; simpl; [done|].
  destruct (base !! "name") as [v2|] eqn:H2; simpl; [done|].
  destruct (base !! "label_selector") as [v3|] eqn:H3; simpl; [done|].
  destruct Hclash as [[? [=]]|[[? [=]]|[? [=]]]].
Qed.

Lemma define_module_clash_witness :
  define_module (<["name" := VDict {[ "type" := VStr "int" ]}]>
                   example_base_arguments)
  = Raises TypeError.
Proof.
  apply (define_module_clash
           (<["name" := VDict {[ "type" := VStr "int" ]}]>
              example_base_arguments)).
  right. left. vm_compute. eauto.
Defined.

(** ** The legacy alias by its qualified name *)

(** C7, where the code departs from the claim: the module is invoked under
    the legacy alias by its collection-qualified name,
    [hetzner.hcloud.hcloud_server_facts].  [main] compares [_name] with the
    short name only, so the run records no deprecation notice, and whenever
    it hands records back it does so under the current key
    [hcloud_server_info], not under [hcloud_server_facts] inside
    [ansible_facts]. *)
Theorem main_qualified_legacy_name get_result p client w :
  deprecations (main get_result (qualified_facts_module p) client w).1
    = deprecations w ∧
  (∀ kwargs,
     (main get_result (qualified_facts_module p) client w).2
       = Exited (ExitJson kwargs) →
     ∃ records, kwargs = {[ "hcloud_server_info" := records ]}) ∧
  main Hcloud_get_result (qualified_facts_module no_params)
    (fake_client example_servers) world0
  = ({| api_calls := [GetAll None]; deprecations := [] |},
     Exited (ExitJson
       {[ "hcloud_server_info" :=
            VList (_prepare_result_body [] (Some bare_server)
                   ++ _prepare_result_body [] (Some my_server)) ]})).
Proof.
  split; [|split].
  - rewrite main_eq. simpl.
    destruct (perform client _) as [servers|e].
    + destruct (get_result _) as [result|e]; [|done].
      by destruct (result !! "hcloud_server_info").
    + destruct (exc_is_Exception e); [|done]. by destruct (exc_message e).
  - intros kwargs. rewrite main_eq. simpl.
    destruct (perform client _) as [servers|e].
    + destruct (get_result _) as [result|e]; [|done].
      destruct (result !! "hcloud_server_info") as [v|]; [|done].
      intros [= <-]. by exists v.
    + destruct (exc_is_Exception e); [|done]. by destruct (exc_message e).
  - vm_compute. reflexivity.
Qed.
